(** * The session-addressed control-socket daemon (src/daemon.ts)

  A shallow embedding of the daemon: the address resolver
  ([getPortForSession], [getSocketPath], ...), the lock/liveness tracker
  ([isDaemonRunning], [cleanupSocket]), the per-connection framer and
  command dispatcher (the ['data'] handler of [startDaemon]) and the
  lifecycle coordinator (start-up, the close timer, the signal handler
  [shutdown] and the process-wide error handlers).

  JavaScript strings are modelled as lists of UTF-16 code units, numbers
  that the code keeps integral as [Z] with the 32-bit conversions written
  out, the file system as a finite map from paths to contents, and the
  collaborators that live in other modules (codec, driver, browser) as
  interfaces. *)

From Stdlib Require Import ZArith List String Ascii Bool Lia DecimalString.
From stdpp Require Import base option list gmap.

Local Open Scope Z_scope.

(** ** JavaScript values used by the daemon *)

Module JS.

(** A string is its sequence of UTF-16 code units. *)
Definition jsstring : Type := list Z.

(** A literal of the source, written with an ASCII Rocq string. *)
Definition str (s : string) : jsstring :=
  List.map (fun a => Z.of_N (N_of_ascii a)) (list_ascii_of_string s).

(** [ToInt32] of ECMAScript on an integral number. *)
Definition ToInt32 (x : Z) : Z := (x + 2 ^ 31) mod 2 ^ 32 - 2 ^ 31.

(** [x << n]: both operands converted, the count masked to five bits. *)
Definition shl (x n : Z) : Z :=
  ToInt32 (Z.shiftl (ToInt32 x) (Z.land n 31)).

(** [x | y] on 32-bit integers. *)
Definition bor (x y : Z) : Z := ToInt32 (Z.lor (ToInt32 x) (ToInt32 y)).

(** [x % y] truncates towards zero. *)
Definition rem (x y : Z) : Z := Z.rem x y.

(** [Math.abs]. *)
Definition Math_abs (x : Z) : Z := Z.abs x.

(** A code unit as [charCodeAt] returns it. *)
Definition is_code_unit (c : Z) : Prop := 0 <= c < 65536.

(** The characters [String.prototype.trim] strips: WhiteSpace and
    LineTerminator of ECMAScript (TAB, LF, VT, FF, CR, SP, NBSP, U+1680,
    U+2000..U+200A, U+2028, U+2029, U+202F, U+205F, U+3000, U+FEFF). *)
Definition is_white (c : Z) : bool :=
  ((9 <=? c) && (c <=? 13)) || (c =? 32) || (c =? 160) || (c =? 5760)
  || ((8192 <=? c) && (c <=? 8202)) || (c =? 8232) || (c =? 8233)
  || (c =? 8239) || (c =? 8287) || (c =? 12288) || (c =? 65279).

Fixpoint trimStart (s : jsstring) : jsstring :=
  match s with
  | [] => []
  | c :: r => if is_white c then trimStart r else s
  end.

Definition trimEnd (s : jsstring) : jsstring := rev (trimStart (rev s)).

Definition trim (s : jsstring) : jsstring := trimEnd (trimStart s).

(** Truthiness of a string: only the empty string is falsy. *)
Definition truthy (s : jsstring) : bool :=
  match s with [] => false | _ :: _ => true end.

(** Truthiness of a possibly undefined string ([process.env.X ? .. : ..]). *)
Definition truthy_opt (o : option jsstring) : bool :=
  match o with None => false | Some s => truthy s end.

(** [s.indexOf(c)] for a one-character needle; [-1] when absent. *)
Fixpoint indexOf (s : jsstring) (c : Z) : Z :=
  match s with
  | [] => -1
  | x :: r =>
      if x =? c then 0
      else let i := indexOf r c in if i <? 0 then -1 else i + 1
  end.

(** [s.includes(c)] for a one-character needle. *)
Definition includes (s : jsstring) (c : Z) : bool :=
  existsb (fun x => x =? c) s.

(** [s.substring(a, b)]: arguments clamped to [0, length], swapped when
    out of order. *)
Definition clamp (s : jsstring) (i : Z) : nat :=
  Z.to_nat (Z.min (Z.max i 0) (Z.of_nat (length s))).

Definition substring (s : jsstring) (a b : Z) : jsstring :=
  let lo := Nat.min (clamp s a) (clamp s b) in
  let hi := Nat.max (clamp s a) (clamp s b) in
  firstn (hi - lo) (skipn lo s).

(** [s.substring(a)]. *)
Definition substring_from (s : jsstring) (a : Z) : jsstring :=
  substring s a (Z.of_nat (length s)).

(** [s.split(sep)] for a one-character separator. *)
Fixpoint split (sep : Z) (s : jsstring) : list jsstring :=
  match s with
  | [] => [[]]
  | c :: r =>
      if c =? sep then [] :: split sep r
      else match split sep r with
           | [] => [[c]]
           | x :: xs => (c :: x) :: xs
           end
  end.

(** Decimal digits of [parseInt(s, 10)]. *)
Definition digit_of (c : Z) : option Z :=
  if (48 <=? c) && (c <=? 57) then Some (c - 48) else None.

Fixpoint parse_digits (s : jsstring) (acc : option Z) : option Z :=
  match s with
  | [] => acc
  | c :: r =>
      match digit_of c with
      | Some d =>
          parse_digits r (Some (10 * match acc with Some a => a | None => 0 end + d))
      | None => acc
      end
  end.

(** [parseInt(s, 10)]: leading white space, an optional sign, the longest
    run of digits; [None] is NaN. *)
Definition parseInt (s : jsstring) : option Z :=
  match trimStart s with
  | 45 :: r => Z.opp <$> parse_digits r None
  | 43 :: r => parse_digits r None
  | r => parse_digits r None
  end.

(** [String(n)] and [n.toString()] of an integral number. *)
Definition String_of_Z (n : Z) : jsstring :=
  str (DecimalString.NilZero.string_of_int (Z.to_int n)).

(** [a ?? b]. *)
Definition nullish {A} (a : option A) (b : A) : A :=
  match a with Some x => x | None => b end.

Definition NL : Z := 10.
Definition COMMA : Z := 44.

End JS.

Import JS.

(** ** [Buffer.prototype.toString()]: UTF-8 decoding of one chunk

    The chunk is decoded on its own, as the WHATWG UTF-8 decoder does:
    every ill-formed or truncated sequence becomes U+FFFD, and nothing is
    carried over to the next chunk. *)

Module Utf8.

Definition bytes : Type := list Z.

(** Code point being assembled, continuation bytes still needed (0 when no
    sequence is open), and the bounds the next continuation byte must meet. *)
Record state := {
  u_cp : Z;
  u_needed : Z;
  u_lower : Z;
  u_upper : Z
}.

Definition start : state :=
  {| u_cp := 0; u_needed := 0; u_lower := 128; u_upper := 191 |}.

Definition REPLACEMENT : Z := 65533.

(** UTF-16 code units of a code point. *)
Definition code_units (cp : Z) : list Z :=
  if cp <? 65536 then [cp]
  else let v := cp - 65536 in
       [55296 + Z.shiftr v 10; 56320 + Z.land v 1023].

(** A byte read when no sequence is open. *)
Definition lead (b : Z) : state * list Z :=
  if b <=? 127 then (start, [b])
  else if (194 <=? b) && (b <=? 223) then
    ({| u_cp := Z.land b 31; u_needed := 1; u_lower := 128; u_upper := 191 |}, [])
  else if (224 <=? b) && (b <=? 239) then
    ({| u_cp := Z.land b 15; u_needed := 2;
        u_lower := if b =? 224 then 160 else 128;
        u_upper := if b =? 237 then 159 else 191 |}, [])
  else if (240 <=? b) && (b <=? 244) then
    ({| u_cp := Z.land b 7; u_needed := 3;
        u_lower := if b =? 240 then 144 else 128;
        u_upper := if b =? 244 then 143 else 191 |}, [])
  else (start, [REPLACEMENT]).

Definition step (st : state) (b : Z) : state * list Z :=
  if u_needed st =? 0 then lead b
  else if (u_lower st <=? b) && (b <=? u_upper st) then
    let cp := Z.lor (Z.shiftl (u_cp st) 6) (Z.land b 63) in
    if u_needed st =? 1 then (start, code_units cp)
    else ({| u_cp := cp; u_needed := u_needed st - 1;
             u_lower := 128; u_upper := 191 |}, [])
  else let '(st', out) := lead b in (st', REPLACEMENT :: out).

Fixpoint run (st : state) (bs : bytes) : state * list Z :=
  match bs with
  | [] => (st, [])
  | b :: r =>
      let '(st1, o1) := step st b in
      let '(st2, o2) := run st1 r in
      (st2, o1 ++ o2)
  end.

(** End of the chunk: an open sequence is replaced. *)
Definition flush (st : state) : list Z :=
  if u_needed st =? 0 then [] else [REPLACEMENT].

Definition toString (data : bytes) : jsstring :=
  let '(st, out) := run start data in out ++ flush st.

(** The chunk does not end inside a multi-byte sequence. *)
Definition ends_at_boundary (data : bytes) : Prop :=
  u_needed (fst (run start data)) = 0.

End Utf8.

(** ** Connection framer: lines 170-178 of the ['data'] handler *)

Module Framer.

(** The [while (buffer.includes('\n'))] loop, with the messages it hands
    on collected in order.  Every turn removes at least the newline, so
    [length buffer] turns always suffice. *)
Fixpoint frame_loop (fuel : nat) (buffer : jsstring) : list jsstring * jsstring :=
  match fuel with
  | O => ([], buffer)
  | S fuel =>
      if includes buffer NL then
        let newlineIdx := indexOf buffer NL in
        let line := substring buffer 0 newlineIdx in
        let buffer := substring_from buffer (newlineIdx + 1) in
        if negb (truthy (trim line)) then frame_loop fuel buffer
        else let '(msgs, rest) := frame_loop fuel buffer in (line :: msgs, rest)
      else ([], buffer)
  end.

(** The loop run on a buffer with the fuel that always suffices. *)
Definition frame (buffer : jsstring) : list jsstring * jsstring :=
  frame_loop (length buffer) buffer.

(** One ['data'] event on text already decoded. *)
Definition feed_text (buffer : jsstring) (text : jsstring)
  : list jsstring * jsstring :=
  frame (buffer ++ text).

(** One ['data'] event: [buffer += data.toString()], then the loop. *)
Definition feed (buffer : jsstring) (data : Utf8.bytes)
  : list jsstring * jsstring :=
  feed_text buffer (Utf8.toString data).

(** A connection fed a sequence of chunks, starting from a given buffer. *)
Fixpoint feed_all (buffer : jsstring) (chunks : list Utf8.bytes)
  : list jsstring * jsstring :=
  match chunks with
  | [] => ([], buffer)
  | data :: rest =>
      let '(m1, b1) := feed buffer data in
      let '(m2, b2) := feed_all b1 rest in
      (m1 ++ m2, b2)
  end.

Fixpoint feed_all_text (buffer : jsstring) (chunks : list jsstring)
  : list jsstring * jsstring :=
  match chunks with
  | [] => ([], buffer)
  | text :: rest =>
      let '(m1, b1) := feed_text buffer text in
      let '(m2, b2) := feed_all_text b1 rest in
      (m1 ++ m2, b2)
  end.

End Framer.


(** ** Address resolver *)

Module AddressResolver.

(** One turn of the loop of [getPortForSession]:
    [hash = (hash << 5) - hash + session.charCodeAt(i); hash |= 0]. *)
Definition hash_step (hash c : Z) : Z :=
  let hash := shl hash 5 - hash + c in
  bor hash 0.

Definition session_hash (session : jsstring) : Z :=
  fold_left hash_step session 0.

Definition getPortForSession (session : jsstring) : Z :=
  let hash := session_hash session in
  49152 + rem (Math_abs hash) 16383.

(** The hash as the specification words it: [hash*31 + charCode], wrapped
    to a signed 32-bit integer at every character. *)
Definition spec_hash_step (hash c : Z) : Z := ToInt32 (hash * 31 + c).

Definition spec_port (session : jsstring) : Z :=
  49152 + Z.abs (fold_left spec_hash_step session 0) mod 16383.

End AddressResolver.

(** ** Session artifacts and the lock/liveness tracker *)

Module Artifacts.

(** The process and the platform it runs on. *)
Record Host := {
  isWindows : bool;                 (* process.platform === 'win32' *)
  tmpdir : jsstring;                (* os.tmpdir() *)
  pid : Z;                          (* process.pid *)
  env : gmap jsstring jsstring      (* process.env *)
}.

(** The file system: the files that exist, with their contents.  File
    operations on paths the daemon owns are taken to succeed, so the
    [catch] of [cleanupSocket] is never entered. *)
Abbreviation FS := (gmap jsstring jsstring).

Definition existsSync (fs : FS) (p : jsstring) : bool :=
  bool_decide (is_Some (fs !! p)).

Definition unlinkSync (p : jsstring) (fs : FS) : FS := delete p fs.

Definition writeFileSync (p content : jsstring) (fs : FS) : FS :=
  <[p := content]> fs.

Definition readFileSync (fs : FS) (p : jsstring) : option jsstring := fs !! p.

(** [if (fs.existsSync(p)) fs.unlinkSync(p)]. *)
Definition removeIfExists (p : jsstring) (fs : FS) : FS :=
  if existsSync fs p then unlinkSync p fs else fs.

(** [path.join(dir, file)] for a file name without separators. *)
Definition path_join (h : Host) (dir file : jsstring) : jsstring :=
  dir ++ str (if isWindows h then "\" else "/") ++ file.

(** [let currentSession = process.env.AGENT_BROWSER_SESSION || 'default']. *)
Definition initialSession (h : Host) : jsstring :=
  match env h !! str "AGENT_BROWSER_SESSION" with
  | Some s => if truthy s then s else str "default"
  | None => str "default"
  end.

Inductive ConnectionInfo :=
| Unix (path : jsstring)
| Tcp (port : Z).

Section Session.
Context (h : Host) (currentSession : jsstring).

Definition sessionFile (sess suffix : jsstring) : jsstring :=
  path_join h (tmpdir h) (str "agent-browser-" ++ sess ++ suffix).

Definition getSocketPath (session : option jsstring) : jsstring :=
  let sess := nullish session currentSession in
  if isWindows h then String_of_Z (AddressResolver.getPortForSession sess)
  else sessionFile sess (str ".sock").

Definition getPortFile (session : option jsstring) : jsstring :=
  let sess := nullish session currentSession in
  sessionFile sess (str ".port").

Definition getPidFile (session : option jsstring) : jsstring :=
  let sess := nullish session currentSession in
  sessionFile sess (str ".pid").

Definition getStreamPortFile (session : option jsstring) : jsstring :=
  let sess := nullish session currentSession in
  sessionFile sess (str ".stream").

Definition getConnectionInfo (session : option jsstring) : ConnectionInfo :=
  let sess := nullish session currentSession in
  if isWindows h then Tcp (AddressResolver.getPortForSession sess)
  else Unix (sessionFile sess (str ".sock")).

Definition cleanupSocket (session : option jsstring) (fs : FS) : FS :=
  let pidFile := getPidFile session in
  let streamPortFile := getStreamPortFile session in
  let fs := removeIfExists pidFile fs in
  let fs := removeIfExists streamPortFile fs in
  if isWindows h then
    let portFile := getPortFile session in
    removeIfExists portFile fs
  else
    let socketPath := getSocketPath session in
    removeIfExists socketPath fs.

(** [process.kill(pid, 0)] returns (instead of throwing) when the number is
    a 32-bit integer and the system call [kill0] succeeds on it. *)
Definition process_kill0 (kill0 : Z -> bool) (pid : option Z) : bool :=
  match pid with
  | None => false
  | Some p => if ToInt32 p =? p then kill0 p else false
  end.

Definition isDaemonRunning (kill0 : Z -> bool) (session : option jsstring)
    (fs : FS) : bool * FS :=
  let pidFile := getPidFile session in
  if negb (existsSync fs pidFile) then (false, fs)
  else
    match readFileSync fs pidFile with
    | Some content =>
        let pid := parseInt (trim content) in
        if process_kill0 kill0 pid then (true, fs)
        else (false, cleanupSocket session fs)
    | None => (false, cleanupSocket session fs)
    end.

(** The artifacts of a session that [cleanupSocket] knows. *)
Definition artifacts (session : option jsstring) : list jsstring :=
  [getPidFile session; getStreamPortFile session;
   if isWindows h then getPortFile session else getSocketPath session].

End Session.

End Artifacts.

Import Artifacts.

(** ** Collaborators: the codec (protocol.js), the driver (actions.js) and
    the browser manager (browser.js) *)

Module Collaborators.

(** What a [catch] receives: an [Error] with its message, or another value
    with its [String(..)] text. *)
Inductive thrown :=
| ThrownError (message : jsstring)
| ThrownValue (text : jsstring).

(** [err instanceof Error ? err.message : String(err)]. *)
Definition message_of (err : thrown) : jsstring :=
  match err with
  | ThrownError message => message
  | ThrownValue text => text
  end.

Inductive result (A : Type) :=
| Ok (a : A)
| Throw (err : thrown).
Arguments Ok {A} a.
Arguments Throw {A} err.

Inductive ParseResult (C : Type) :=
| ParseOk (command : C)
| ParseFail (id : option jsstring) (error : jsstring).
Arguments ParseOk {C} command.
Arguments ParseFail {C} id error.

(** The object literal the auto-launch gate passes to [browser.launch]. *)
Record LaunchCommand := {
  l_id : jsstring;
  l_action : jsstring;
  l_headless : bool;
  l_executablePath : option jsstring;
  l_extensions : option (list jsstring)
}.

Record CodegenOptions := {
  cg_path : option jsstring;
  cg_codeOnly : bool;
  cg_cwd : option jsstring
}.

Class Codec := {
  Command : Type;
  Response : Type;
  action : Command -> jsstring;
  parseCommand : jsstring -> ParseResult Command;
  serializeResponse : Response -> jsstring;
  errorResponse : jsstring -> jsstring -> Response
}.

Class Driver `{Codec} := {
  Browser : Type;
  newBrowser : Browser;
  isLaunched : Browser -> bool;
  launch : LaunchCommand -> Browser -> Browser * result unit;
  isCodegenActive : Browser -> bool;
  startCodegen : CodegenOptions -> Browser -> Browser * result unit;
  closeBrowser : Browser -> Browser;
  executeCommand : Command -> Browser -> Browser * result Response
}.

End Collaborators.

Import Collaborators.

(** ** The daemon: dispatcher and lifecycle coordinator *)

Module Daemon.

Section WithCollaborators.
Context `{driver : Driver}.
Context (h : Host).

(** Effects in the order the process performs them. *)
Inductive event :=
| EvCleanupSocket                         (* cleanupSocket() *)
| EvWriteFile (p content : jsstring)      (* fs.writeFileSync *)
| EvRemove (p : jsstring)                 (* if (existsSync(p)) unlinkSync(p) *)
| EvStreamStart (port : Z)                (* streamServer.start() *)
| EvStreamStop                            (* streamServer.stop() *)
| EvCreateServer                          (* net.createServer *)
| EvListen (ep : ConnectionInfo)          (* server.listen: bind and accept *)
| EvServerClose                           (* server.close() *)
| EvLaunch (c : LaunchCommand)            (* browser.launch *)
| EvStartCodegen (o : CodegenOptions)     (* browser.startCodegen *)
| EvExecute (c : Command)                 (* executeCommand *)
| EvBrowserClose                          (* browser.close() *)
| EvSocketWrite (conn : nat) (s : jsstring)
| EvSetTimeout (ms : Z)
| EvConsoleError
| EvExit (code : Z).                      (* process.exit *)

(** Where the suspended [shutdown] routine waits. *)
Inductive shutdown_phase :=
| AwaitStreamStop
| AwaitBrowserClose.

Record daemon := {
  d_fs : FS;
  d_currentSession : jsstring;
  d_browser : Browser;
  d_shuttingDown : bool;
  d_streamServer : option Z;              (* module variable streamServer *)
  d_timer : bool;                         (* the 100 ms timer is pending *)
  d_buffers : gmap nat jsstring;          (* [buffer] of each connection *)
  d_shutdown : option shutdown_phase;
  d_exitHook : bool;                      (* process.on('exit') installed *)
  d_exit : option Z;                      (* exit status once terminated *)
  d_trace : list event
}.

Definition set_fs (x : FS) (d : daemon) : daemon :=
  {| d_fs := x; d_currentSession := d_currentSession d;
     d_browser := d_browser d; d_shuttingDown := d_shuttingDown d;
     d_streamServer := d_streamServer d; d_timer := d_timer d;
     d_buffers := d_buffers d; d_shutdown := d_shutdown d;
     d_exitHook := d_exitHook d; d_exit := d_exit d; d_trace := d_trace d |}.

Definition set_browser (x : Browser) (d : daemon) : daemon :=
  {| d_fs := d_fs d; d_currentSession := d_currentSession d;
     d_browser := x; d_shuttingDown := d_shuttingDown d;
     d_streamServer := d_streamServer d; d_timer := d_timer d;
     d_buffers := d_buffers d; d_shutdown := d_shutdown d;
     d_exitHook := d_exitHook d; d_exit := d_exit d; d_trace := d_trace d |}.

Definition set_shuttingDown (x : bool) (d : daemon) : daemon :=
  {| d_fs := d_fs d; d_currentSession := d_currentSession d;
     d_browser := d_browser d; d_shuttingDown := x;
     d_streamServer := d_streamServer d; d_timer := d_timer d;
     d_buffers := d_buffers d; d_shutdown := d_shutdown d;
     d_exitHook := d_exitHook d; d_exit := d_exit d; d_trace := d_trace d |}.

Definition set_streamServer (x : option Z) (d : daemon) : daemon :=
  {| d_fs := d_fs d; d_currentSession := d_currentSession d;
     d_browser := d_browser d; d_shuttingDown := d_shuttingDown d;
     d_streamServer := x; d_timer := d_timer d;
     d_buffers := d_buffers d; d_shutdown := d_shutdown d;
     d_exitHook := d_exitHook d; d_exit := d_exit d; d_trace := d_trace d |}.

Definition set_timer (x : bool) (d : daemon) : daemon :=
  {| d_fs := d_fs d; d_currentSession := d_currentSession d;
     d_browser := d_browser d; d_shuttingDown := d_shuttingDown d;
     d_streamServer := d_streamServer d; d_timer := x;
     d_buffers := d_buffers d; d_shutdown := d_shutdown d;
     d_exitHook := d_exitHook d; d_exit := d_exit d; d_trace := d_trace d |}.

Definition set_buffers (x : gmap nat jsstring) (d : daemon) : daemon :=
  {| d_fs := d_fs d; d_currentSession := d_currentSession d;
     d_browser := d_browser d; d_shuttingDown := d_shuttingDown d;
     d_streamServer := d_streamServer d; d_timer := d_timer d;
     d_buffers := x; d_shutdown := d_shutdown d;
     d_exitHook := d_exitHook d; d_exit := d_exit d; d_trace := d_trace d |}.

Definition set_shutdown (x : option shutdown_phase) (d : daemon) : daemon :=
  {| d_fs := d_fs d; d_currentSession := d_currentSession d;
     d_browser := d_browser d; d_shuttingDown := d_shuttingDown d;
     d_streamServer := d_streamServer d; d_timer := d_timer d;
     d_buffers := d_buffers d; d_shutdown := x;
     d_exitHook := d_exitHook d; d_exit := d_exit d; d_trace := d_trace d |}.

Definition set_exitHook (x : bool) (d : daemon) : daemon :=
  {| d_fs := d_fs d; d_currentSession := d_currentSession d;
     d_browser := d_browser d; d_shuttingDown := d_shuttingDown d;
     d_streamServer := d_streamServer d; d_timer := d_timer d;
     d_buffers := d_buffers d; d_shutdown := d_shutdown d;
     d_exitHook := x; d_exit := d_exit d; d_trace := d_trace d |}.

Definition set_exit (x : option Z) (d : daemon) : daemon :=
  {| d_fs := d_fs d; d_currentSession := d_currentSession d;
     d_browser := d_browser d; d_shuttingDown := d_shuttingDown d;
     d_streamServer := d_streamServer d; d_timer := d_timer d;
     d_buffers := d_buffers d; d_shutdown := d_shutdown d;
     d_exitHook := d_exitHook d; d_exit := x; d_trace := d_trace d |}.

(** Append one effect to the trace. *)
Definition log (e : event) (d : daemon) : daemon :=
  {| d_fs := d_fs d; d_currentSession := d_currentSession d;
     d_browser := d_browser d; d_shuttingDown := d_shuttingDown d;
     d_streamServer := d_streamServer d; d_timer := d_timer d;
     d_buffers := d_buffers d; d_shutdown := d_shutdown d;
     d_exitHook := d_exitHook d; d_exit := d_exit d;
     d_trace := d_trace d ++ [e] |}.

(** Kinds of effects that the properties count. *)
Definition is_write (e : event) : bool :=
  match e with EvSocketWrite _ _ => true | _ => false end.

Definition is_launch (e : event) : bool :=
  match e with EvLaunch _ => true | _ => false end.

Definition is_execute (e : event) : bool :=
  match e with EvExecute _ => true | _ => false end.





(** *** Statements with effects on the process *)

(** [cleanupSocket()] for the current session. *)
Definition do_cleanupSocket (d : daemon) : daemon :=
  let d := log EvCleanupSocket d in
  set_fs (cleanupSocket h (d_currentSession d) None (d_fs d)) d.

Definition do_writeFile (p content : jsstring) (d : daemon) : daemon :=
  let d := log (EvWriteFile p content) d in
  set_fs (writeFileSync p content (d_fs d)) d.

Definition do_remove (p : jsstring) (d : daemon) : daemon :=
  let d := log (EvRemove p) d in
  set_fs (removeIfExists p (d_fs d)) d.

(** [process.exit(code)]: the ['exit'] listener, once installed, runs
    [cleanupSocket()]; then the process is gone. *)
Definition process_exit (code : Z) (d : daemon) : daemon :=
  let d := log (EvExit code) d in
  let d := if d_exitHook d then do_cleanupSocket d else d in
  set_exit (Some code) d.

(** *** The dispatcher: the body of the [while] loop, lines 180-239 *)

(** State-and-exception monad of the statements inside the [try]. *)
Definition M (A : Type) : Type := daemon -> daemon * result A.

Definition ret {A} (a : A) : M A := fun d => (d, Ok a).

Definition bind {A B} (m : M A) (k : A -> M B) : M B :=
  fun d => match m d with
           | (d', Ok a) => k a d'
           | (d', Throw err) => (d', Throw err)
           end.

Notation "x <- m ;; k" := (bind m (fun x => k))
  (at level 100, m at next level, right associativity).
Notation "m ;;; k" := (bind m (fun _ => k))
  (at level 100, right associativity).

Definition emit (e : event) : M unit := fun d => (log e d, Ok tt).

Definition get {A} (f : daemon -> A) : M A := fun d => (d, Ok (f d)).

Definition modify (f : daemon -> daemon) : M unit := fun d => (f d, Ok tt).

(** [socket.write(s)]. *)
Definition socket_write (conn : nat) (s : jsstring) : M unit :=
  emit (EvSocketWrite conn s).

(** [await browser.launch(c)]. *)
Definition do_launch (c : LaunchCommand) : M unit :=
  emit (EvLaunch c) ;;;
  fun d => let '(b, r) := launch c (d_browser d) in (set_browser b d, r).

(** [browser.startCodegen(o)]. *)
Definition do_startCodegen (o : CodegenOptions) : M unit :=
  emit (EvStartCodegen o) ;;;
  fun d => let '(b, r) := startCodegen o (d_browser d) in (set_browser b d, r).

(** [await executeCommand(command, browser)]. *)
Definition do_execute (command : Command) : M Response :=
  emit (EvExecute command) ;;;
  fun d => let '(b, r) := executeCommand command (d_browser d) in
           (set_browser b d, r).

Definition env_get (name : string) : option jsstring := env h !! str name.

Definition env_is (name value : string) : bool :=
  bool_decide (env_get name = Some (str value)).

(** [process.env.AGENT_BROWSER_EXTENSIONS
       ? process.env.AGENT_BROWSER_EXTENSIONS.split(',')
           .map((p) => p.trim()).filter(Boolean)
       : undefined]. *)
Definition extensionsFromEnv : option (list jsstring) :=
  match env_get "AGENT_BROWSER_EXTENSIONS" with
  | Some v =>
      if truthy v then Some (List.filter truthy (List.map trim (split COMMA v)))
      else None
  | None => None
  end.

Definition autoLaunchCommand : LaunchCommand :=
  {| l_id := str "auto";
     l_action := str "launch";
     l_headless := negb (env_is "AGENT_BROWSER_HEADED" "1");
     l_executablePath := env_get "AGENT_BROWSER_EXECUTABLE_PATH";
     l_extensions := extensionsFromEnv |}.

Definition codegenOptions : CodegenOptions :=
  {| cg_path := env_get "AGENT_BROWSER_CODEGEN_OUTPUT";
     cg_codeOnly := env_is "AGENT_BROWSER_CODEGEN_CODE_ONLY" "1";
     cg_cwd := env_get "AGENT_BROWSER_CODEGEN_CWD" |}.

Definition is_action (command : Command) (name : string) : bool :=
  bool_decide (action command = str name).

(** What the loop does after a line: go on, or leave the handler. *)
Inductive control :=
| Continue
| Return.

(** The auto-launch gate, lines 189-216. *)
Definition autoLaunchGate (command : Command) : M unit :=
  launched <- get (fun d => isLaunched (d_browser d)) ;;
  if negb launched && negb (is_action command "launch")
     && negb (is_action command "close")
  then
    do_launch autoLaunchCommand ;;;
    active <- get (fun d => isCodegenActive (d_browser d)) ;;
    if env_is "AGENT_BROWSER_CODEGEN" "1" && negb active
    then do_startCodegen codegenOptions
    else ret tt
  else ret tt.

(** The 100 ms timer is armed once: [if (!shuttingDown) {...}]. *)
Definition scheduleClose : M unit :=
  shuttingDown <- get d_shuttingDown ;;
  if negb shuttingDown then
    modify (set_shuttingDown true) ;;;
    emit (EvSetTimeout 100) ;;;
    modify (set_timer true)
  else ret tt.

(** The statements inside [try { ... }]. *)
Definition tryBody (conn : nat) (line : jsstring) : M control :=
  match parseCommand line with
  | ParseFail id error =>
      let resp := errorResponse (nullish id (str "unknown")) error in
      socket_write conn (serializeResponse resp ++ [NL]) ;;;
      ret Continue
  | ParseOk command =>
      autoLaunchGate command ;;;
      if is_action command "close" then
        response <- do_execute command ;;
        socket_write conn (serializeResponse response ++ [NL]) ;;;
        scheduleClose ;;;
        ret Return
      else
        response <- do_execute command ;;
        socket_write conn (serializeResponse response ++ [NL]) ;;;
        ret Continue
  end.

(** [try { ... } catch (err) { ... }]: the handler answers and the loop
    goes on. *)
Definition processLine (conn : nat) (line : jsstring) (d : daemon)
  : daemon * control :=
  match tryBody conn line d with
  | (d', Ok k) => (d', k)
  | (d', Throw err) =>
      let message := message_of err in
      (log (EvSocketWrite conn
              (serializeResponse (errorResponse (str "error") message)
               ++ [NL])) d',
       Continue)
  end.

(** The [while] loop of the ['data'] handler with the dispatcher inside. *)
Fixpoint dataLoop (fuel : nat) (conn : nat) (buffer : jsstring) (d : daemon)
  : daemon * jsstring :=
  match fuel with
  | O => (d, buffer)
  | S fuel =>
      if includes buffer NL then
        let newlineIdx := indexOf buffer NL in
        let line := substring buffer 0 newlineIdx in
        let buffer := substring_from buffer (newlineIdx + 1) in
        if negb (truthy (trim line)) then dataLoop fuel conn buffer d
        else
          match processLine conn line d with
          | (d', Continue) => dataLoop fuel conn buffer d'
          | (d', Return) => (d', buffer)
          end
      else (d, buffer)
  end.

Definition bufferOf (conn : nat) (d : daemon) : jsstring :=
  nullish (d_buffers d !! conn) [].

(** [socket.on('data', async (data) => {...})] on already decoded text. *)
Definition onText (conn : nat) (text : jsstring) (d : daemon) : daemon :=
  let buffer := bufferOf conn d ++ text in
  let '(d', buffer') := dataLoop (length buffer) conn buffer d in
  set_buffers (<[conn := buffer']> (d_buffers d')) d'.

(** [socket.on('data', ...)]: every await of the driver is taken to
    resolve before the next event is delivered. *)
Definition onData (conn : nat) (data : Utf8.bytes) (d : daemon) : daemon :=
  onText conn (Utf8.toString data) d.

(** *** The lifecycle coordinator *)

(** The callback of [setTimeout(.., 100)], lines 226-228. *)
Definition onCloseTimer (d : daemon) : daemon :=
  if d_timer d then
    let d := set_timer false d in
    let d := log EvServerClose d in
    let d := do_cleanupSocket d in
    process_exit 0 d
  else d.

(** [shutdown] up to its first [await]. *)
Definition shutdownStart (d : daemon) : daemon :=
  if d_shuttingDown d then d
  else
    let d := set_shuttingDown true d in
    match d_streamServer d with
    | Some _ =>
        let d := log EvStreamStop d in
        set_shutdown (Some AwaitStreamStop) d
    | None =>
        let d := log EvBrowserClose d in
        let d := set_browser (closeBrowser (d_browser d)) d in
        set_shutdown (Some AwaitBrowserClose) d
    end.

(** [shutdown] resumed when the promise it awaits resolves. *)
Definition shutdownResume (d : daemon) : daemon :=
  match d_shutdown d with
  | Some AwaitStreamStop =>
      let d := set_streamServer None d in
      let d := do_remove (getStreamPortFile h (d_currentSession d) None) d in
      let d := log EvBrowserClose d in
      let d := set_browser (closeBrowser (d_browser d)) d in
      set_shutdown (Some AwaitBrowserClose) d
  | Some AwaitBrowserClose =>
      let d := set_shutdown None d in
      let d := log EvServerClose d in
      let d := do_cleanupSocket d in
      process_exit 0 d
  | None => d
  end.

(** The handlers of [server.on('error')], ['uncaughtException'] and
    ['unhandledRejection'], and the [catch] of [startDaemon()]: all are
    [console.error(..); cleanupSocket(); process.exit(1)]. *)
Definition fatal (d : daemon) : daemon :=
  let d := log EvConsoleError d in
  let d := do_cleanupSocket d in
  process_exit 1 d.

(** What the event loop delivers to the daemon. *)
Inductive input :=
| InData (conn : nat) (data : Utf8.bytes)
| InTimer                     (* the 100 ms timer elapses *)
| InSignal                    (* SIGINT, SIGTERM or SIGHUP *)
| InAwaitResolved             (* the promise [shutdown] awaits resolves *)
| InServerError               (* 'error' on the listener, e.g. bind failure *)
| InUncaughtException
| InUnhandledRejection.

(** One event; nothing runs once the process has exited. *)
Definition step (d : daemon) (i : input) : daemon :=
  match d_exit d with
  | Some _ => d
  | None =>
      match i with
      | InData conn data => onData conn data d
      | InTimer => onCloseTimer d
      | InSignal => shutdownStart d
      | InAwaitResolved => shutdownResume d
      | InServerError => fatal d
      | InUncaughtException => fatal d
      | InUnhandledRejection => fatal d
      end
  end.

Definition run (d : daemon) (inputs : list input) : daemon :=
  fold_left step inputs d.

(** *** Start-up, lines 143-267 and 299-322 *)

(** [options?.streamPort ?? (process.env.AGENT_BROWSER_STREAM_PORT
       ? parseInt(process.env.AGENT_BROWSER_STREAM_PORT, 10) : 0)];
    [None] is NaN. *)
Definition streamPortOf (options : option Z) : option Z :=
  match options with
  | Some port => Some port
  | None =>
      match env_get "AGENT_BROWSER_STREAM_PORT" with
      | Some v => if truthy v then parseInt v else Some 0
      | None => Some 0
      end
  end.

(** [streamPort > 0]. *)
Definition streamEnabled (streamPort : option Z) : option Z :=
  match streamPort with
  | Some port => if 0 <? port then Some port else None
  | None => None
  end.

(** The process before [startDaemon] runs. *)
Definition boot (fs : FS) : daemon :=
  {| d_fs := fs; d_currentSession := initialSession h;
     d_browser := newBrowser; d_shuttingDown := false;
     d_streamServer := None; d_timer := false; d_buffers := ∅;
     d_shutdown := None; d_exitHook := false; d_exit := None;
     d_trace := [] |}.

(** [server.listen(..)] on the endpoint of the platform, after the PID file
    (and on Windows the port file) has been written. *)
Definition bindAndListen (d : daemon) : daemon :=
  let pidFile := getPidFile h (d_currentSession d) None in
  let d := do_writeFile pidFile (String_of_Z (pid h)) d in
  if isWindows h then
    let port := AddressResolver.getPortForSession (d_currentSession d) in
    let portFile := getPortFile h (d_currentSession d) None in
    let d := do_writeFile portFile (String_of_Z port) d in
    log (EvListen (Tcp port)) d
  else
    let socketPath := getSocketPath h (d_currentSession d) None in
    log (EvListen (Unix socketPath)) d.

(** [startDaemon(options)]; [streamStart] is the outcome of
    [await streamServer.start()]. *)
Definition startDaemon (options : option Z) (streamStart : result unit)
  : M unit :=
  modify do_cleanupSocket ;;;
  modify (set_browser newBrowser) ;;;
  modify (set_shuttingDown false) ;;;
  let streamPort := streamPortOf options in
  match streamEnabled streamPort with
  | Some port =>
      modify (set_streamServer (Some port)) ;;;
      emit (EvStreamStart port) ;;;
      (fun d => (d, streamStart)) ;;;
      streamPortFile <-
        get (fun d => getStreamPortFile h (d_currentSession d) None) ;;
      modify (do_writeFile streamPortFile (String_of_Z port))
  | None => ret tt
  end ;;;
  emit EvCreateServer ;;;
  modify bindAndListen ;;;
  modify (set_exitHook true).

(** The entry point: [startDaemon().catch((err) => { console.error(..);
    cleanupSocket(); process.exit(1); })]. *)
Definition main (options : option Z) (streamStart : result unit) (fs : FS)
  : daemon :=
  match startDaemon options streamStart (boot fs) with
  | (d, Ok _) => d
  | (d, Throw _) => fatal d
  end.

(** *** Vocabulary of the lifecycle properties *)


Definition is_listen (e : event) : bool :=
  match e with EvListen _ => true | _ => false end.

Definition is_write_of (p : jsstring) (e : event) : bool :=
  match e with EvWriteFile q _ => bool_decide (q = p) | _ => false end.

(** Position of the first effect of a kind. *)
Fixpoint index_of (p : event -> bool) (t : list event) : option nat :=
  match t with
  | [] => None
  | e :: r => if p e then Some O else S <$> index_of p r
  end.



End WithCollaborators.

End Daemon.

(** ** A small codec, driver and host to run the daemon on *)

Module Sample.

Record SampleCommand := { s_id : jsstring; s_action : jsstring }.

Record SampleResponse := {
  r_id : jsstring;
  r_success : bool;
  r_text : jsstring
}.

Definition COLON : Z := 58.

(** A request is [id:action]. *)
Definition sample_parse (line : jsstring) : ParseResult SampleCommand :=
  match split COLON line with
  | [id; act] =>
      if truthy act then ParseOk {| s_id := id; s_action := act |}
      else ParseFail (Some id) (str "missing action")
  | _ => ParseFail None (str "invalid request")
  end.

Definition sample_serialize (r : SampleResponse) : jsstring :=
  r_id r ++ str (if r_success r then " ok " else " error ") ++ r_text r.

Definition sample_codec : Codec :=
  {| Command := SampleCommand;
     Response := SampleResponse;
     action := s_action;
     parseCommand := sample_parse;
     serializeResponse := sample_serialize;
     errorResponse := fun id message =>
       {| r_id := id; r_success := false; r_text := message |} |}.

Record SampleBrowser := { b_launched : bool; b_codegen : bool }.

(** The command [fail] throws, [close] closes the browser, [launch]
    launches it, anything else succeeds. *)
Definition sample_execute (c : SampleCommand) (b : SampleBrowser)
  : SampleBrowser * result SampleResponse :=
  if bool_decide (s_action c = str "fail") then
    (b, Throw (ThrownError (str "command failed")))
  else if bool_decide (s_action c = str "close") then
    ({| b_launched := false; b_codegen := false |},
     Ok {| r_id := s_id c; r_success := true; r_text := str "closed" |})
  else if bool_decide (s_action c = str "launch") then
    ({| b_launched := true; b_codegen := b_codegen b |},
     Ok {| r_id := s_id c; r_success := true; r_text := str "launched" |})
  else
    (b, Ok {| r_id := s_id c; r_success := true; r_text := s_action c |}).

(** Launching fails when the configured executable is [missing]. *)
Definition sample_launch (c : LaunchCommand) (b : SampleBrowser)
  : SampleBrowser * result unit :=
  if bool_decide (l_executablePath c = Some (str "missing")) then
    (b, Throw (ThrownError (str "executable not found")))
  else ({| b_launched := true; b_codegen := b_codegen b |}, Ok tt).

Definition sample_driver : @Driver sample_codec :=
  @Build_Driver sample_codec
    SampleBrowser
    {| b_launched := false; b_codegen := false |}
    b_launched
    sample_launch
    b_codegen
    (fun _ b => ({| b_launched := b_launched b; b_codegen := true |}, Ok tt))
    (fun _ => {| b_launched := false; b_codegen := false |})
    sample_execute.

Definition posix : Host :=
  {| isWindows := false; tmpdir := str "/tmp"; pid := 4242; env := ∅ |}.

Definition windows : Host :=
  {| isWindows := true; tmpdir := str "C:\Temp"; pid := 4242;
     env := {[ str "AGENT_BROWSER_SESSION" := str "t1" ]} |}.

(** A host whose environment configures the auto-launch gate. *)
Definition configured : Host :=
  {| isWindows := false; tmpdir := str "/tmp"; pid := 4242;
     env := {[ str "AGENT_BROWSER_HEADED" := str "1";
               str "AGENT_BROWSER_EXTENSIONS" := str " /a ,, /b,  ";
               str "AGENT_BROWSER_STREAM_PORT" := str "9223" ]} |}.


End Sample.

Module Runs.
Import Daemon Sample.

(** The sample daemon once started, on the plain and on the configured
    host, with an empty temporary directory. *)
Definition started : @daemon sample_codec sample_driver :=
  @main sample_codec sample_driver posix None (Ok tt) ∅.

Definition started_configured : @daemon sample_codec sample_driver :=
  @main sample_codec sample_driver configured None (Ok tt) ∅.


(** The part of a trace that a run added to the trace it started from. *)
Definition added (before after : @daemon sample_codec sample_driver)
  : list (@event sample_codec) :=
  skipn (length (d_trace before)) (d_trace after).

End Runs.

(** * Properties *)

Import AddressResolver Framer Daemon.

Section ResolverFacts.

Lemma ToInt32_range x : - 2 ^ 31 <= ToInt32 x < 2 ^ 31.
Proof.
  unfold ToInt32.
  pose proof (Z.mod_pos_bound (x + 2 ^ 31) (2 ^ 32) ltac:(lia)). lia.
Qed.

Lemma ToInt32_small x : - 2 ^ 31 <= x < 2 ^ 31 -> ToInt32 x = x.
Proof.
  intros H. unfold ToInt32. rewrite Z.mod_small; lia.
Qed.

Lemma ToInt32_congr x y :
  x mod 2 ^ 32 = y mod 2 ^ 32 -> ToInt32 x = ToInt32 y.
Proof.
  intros H. unfold ToInt32.
  rewrite <- (Z.add_mod_idemp_l x), <- (Z.add_mod_idemp_l y) by lia.
  now rewrite H.
Qed.

Lemma ToInt32_mod x : ToInt32 x mod 2 ^ 32 = x mod 2 ^ 32.
Proof.
  unfold ToInt32.
  rewrite <- Zminus_mod_idemp_l, Z.mod_mod by lia.
  rewrite Zminus_mod_idemp_l. f_equal. lia.
Qed.

Lemma bor_zero x : bor x 0 = ToInt32 x.
Proof.
  unfold bor. rewrite (ToInt32_small 0) by lia.
  rewrite Z.lor_0_r. apply ToInt32_small, ToInt32_range.
Qed.

Lemma shl_5 x : shl x 5 mod 2 ^ 32 = (x * 32) mod 2 ^ 32.
Proof.
  unfold shl. change (Z.land 5 31) with 5.
  rewrite Z.shiftl_mul_pow2 by lia. rewrite ToInt32_mod.
  change (2 ^ 5) with 32.
  rewrite <- Z.mul_mod_idemp_l by lia. rewrite ToInt32_mod.
  now rewrite Z.mul_mod_idemp_l by lia.
Qed.

(** The shift-and-subtract step is the multiply-by-31 step. *)
Lemma hash_step_spec h c : hash_step h c = spec_hash_step h c.
Proof.
  unfold hash_step, spec_hash_step. rewrite bor_zero.
  apply ToInt32_congr.
  replace (shl h 5 - h + c) with (shl h 5 + (c - h)) by lia.
  rewrite <- Z.add_mod_idemp_l, shl_5, Z.add_mod_idemp_l by lia.
  f_equal. lia.
Qed.

Lemma session_hash_spec s h :
  fold_left hash_step s h = fold_left spec_hash_step s h.
Proof.
  revert h. induction s as [|c s IH]; intros h; simpl; [reflexivity|].
  now rewrite hash_step_spec, IH.
Qed.

Lemma session_hash_range s : - 2 ^ 31 <= session_hash s < 2 ^ 31.
Proof.
  unfold session_hash.
  assert (G : forall h, - 2 ^ 31 <= h < 2 ^ 31 ->
              - 2 ^ 31 <= fold_left hash_step s h < 2 ^ 31).
  { induction s as [|c s IH]; intros h Hh; simpl; [exact Hh|].
    apply IH. rewrite hash_step_spec. apply ToInt32_range. }
  apply G. lia.
Qed.

(** C7. The TCP fallback port folds the session name with
    [hash*31 + charCode] wrapped to 32 signed bits, takes the absolute
    value and maps it by modulo into the dynamic range: the value the code
    computes is that function of the name alone, and it always lies in
    [49152, 65535). *)
Theorem C7_port_is_wrapped_hash_in_range (session : jsstring) :
  getPortForSession session = spec_port session /\
  49152 <= getPortForSession session < 65535.
Proof.
  assert (E : getPortForSession session = spec_port session).
  { unfold getPortForSession, spec_port, session_hash, rem, Math_abs.
    rewrite session_hash_spec.
    rewrite Z.rem_mod_nonneg by lia. reflexivity. }
  split; [exact E|].
  rewrite E. unfold spec_port.
  pose proof (Z.mod_pos_bound
                (Z.abs (fold_left spec_hash_step session 0)) 16383
                ltac:(lia)).
  lia.
Qed.

End ResolverFacts.

Section StringFacts.

Lemma includes_app_nl pre post :
  includes (pre ++ NL :: post) NL = true.
Proof.
  unfold includes. rewrite existsb_app. apply orb_true_iff. right.
  cbn [existsb]. now rewrite Z.eqb_refl.
Qed.

Lemma includes_false_indexOf s c : includes s c = false -> indexOf s c = -1.
Proof.
  unfold includes. induction s as [|x s IH]; simpl; [reflexivity|].
  destruct (x =? c); simpl; [discriminate|].
  intros H. now rewrite (IH H).
Qed.

Lemma indexOf_first pre post c :
  includes pre c = false ->
  indexOf (pre ++ c :: post) c = Z.of_nat (length pre).
Proof.
  unfold includes. induction pre as [|x pre IH]; simpl.
  - now rewrite Z.eqb_refl.
  - destruct (x =? c); simpl; [discriminate|].
    intros H. rewrite (IH H).
    destruct (Z.of_nat (length pre) <? 0) eqn:E; lia.
Qed.

(** A string that includes the character splits at its first occurrence. *)
Lemma includes_split s c :
  includes s c = true ->
  exists pre post, s = pre ++ c :: post /\ includes pre c = false.
Proof.
  unfold includes. induction s as [|x s IH]; simpl; [discriminate|].
  destruct (x =? c) eqn:E; simpl.
  - intros _. exists [], s. apply Z.eqb_eq in E. now subst.
  - intros H. destruct (IH H) as (pre & post & -> & Hp).
    exists (x :: pre), post. simpl. now rewrite E.
Qed.

Lemma clamp_of_nat (s : jsstring) n :
  (n <= length s)%nat -> clamp s (Z.of_nat n) = n.
Proof. unfold clamp. lia. Qed.

Lemma substring_prefix (pre post : jsstring) :
  substring (pre ++ post) 0 (Z.of_nat (length pre)) = pre.
Proof.
  unfold substring.
  rewrite (clamp_of_nat _ 0) by lia.
  rewrite clamp_of_nat by (rewrite length_app; lia).
  rewrite Nat.min_0_l, Nat.max_0_l, Nat.sub_0_r, skipn_O.
  now rewrite firstn_app, firstn_all, Nat.sub_diag, firstn_O, app_nil_r.
Qed.

Lemma substring_from_suffix (pre post : jsstring) :
  substring_from (pre ++ post) (Z.of_nat (length pre)) = post.
Proof.
  unfold substring_from, substring.
  rewrite clamp_of_nat by (rewrite length_app; lia).
  rewrite (clamp_of_nat _ (length (pre ++ post))) by lia.
  rewrite length_app.
  rewrite Nat.min_l, Nat.max_r by lia.
  rewrite skipn_app, skipn_all, Nat.sub_diag. simpl.
  apply firstn_all2. lia.
Qed.

Lemma substring_after_nl (pre post : jsstring) c :
  substring_from (pre ++ c :: post) (Z.of_nat (length pre) + 1) = post.
Proof.
  replace (pre ++ c :: post) with ((pre ++ [c]) ++ post)
    by now rewrite <- app_assoc.
  replace (Z.of_nat (length pre) + 1) with (Z.of_nat (length (pre ++ [c])))
    by (rewrite length_app; simpl; lia).
  apply substring_from_suffix.
Qed.

Lemma trimStart_keeps c r : is_white c = false -> trimStart (c :: r) = c :: r.
Proof. intros H. simpl. now rewrite H. Qed.

Lemma trimStart_head s c r : trimStart s = c :: r -> is_white c = false.
Proof.
  induction s as [|x s IH]; simpl; [discriminate|].
  destruct (is_white x) eqn:E; [exact IH|]. intros [= -> _]. exact E.
Qed.

Lemma trimStart_idem s : trimStart (trimStart s) = trimStart s.
Proof.
  induction s as [|x s IH]; simpl; [reflexivity|].
  destruct (is_white x) eqn:E; [exact IH|]. simpl. now rewrite E.
Qed.

Lemma trimStart_snoc l x :
  is_white x = false -> trimStart (l ++ [x]) = trimStart l ++ [x].
Proof.
  intros Hx. induction l as [|c l IH]; simpl; [now rewrite Hx|].
  now destruct (is_white c).
Qed.

(** The shape of a trimmed string: empty, or between two characters that
    are not white space. *)
Lemma trim_shape s :
  trim s = [] \/
  exists c r, trimStart s = c :: r /\ is_white c = false /\
              trim s = c :: rev (trimStart (rev r)).
Proof.
  unfold trim, trimEnd. destruct (trimStart s) as [|c r] eqn:E; [now left|].
  right. exists c, r. pose proof (trimStart_head _ _ _ E) as Hc.
  repeat split; [exact Hc|]. simpl.
  now rewrite trimStart_snoc, rev_app_distr.
Qed.

Lemma trim_idem s : trim (trim s) = trim s.
Proof.
  destruct (trim_shape s) as [E | (c & r & _ & Hc & E)]; rewrite E;
    [reflexivity|].
  unfold trim, trimEnd. rewrite trimStart_keeps by assumption. simpl.
  rewrite rev_involutive, trimStart_snoc, trimStart_idem by assumption.
  now rewrite rev_app_distr.
Qed.

(** [split] cuts exactly at the separators. *)
Lemma split_no_sep sep s :
  Forall (fun piece => includes piece sep = false) (split sep s).
Proof.
  induction s as [|c s IH]; simpl; [repeat constructor|].
  destruct (c =? sep) eqn:E; [now constructor|].
  destruct (split sep s) as [|x xs]; [repeat constructor; simpl; now rewrite E|].
  inversion IH; subst. constructor; [|assumption].
  unfold includes in *. simpl. now rewrite E.
Qed.

Lemma split_nonempty sep s : split sep s <> [].
Proof.
  destruct s as [|c s]; simpl; [discriminate|].
  destruct (c =? sep); [discriminate|]. now destruct (split sep s).
Qed.

End StringFacts.

Section FramerFacts.

(** One turn of the loop on a buffer whose first newline ends [line]. *)
Lemma frame_loop_line fuel line rest :
  includes line NL = false ->
  frame_loop (S fuel) (line ++ NL :: rest) =
    if negb (truthy (trim line)) then frame_loop fuel rest
    else (line :: fst (frame_loop fuel rest), snd (frame_loop fuel rest)).
Proof.
  intros Hl. simpl. rewrite includes_app_nl.
  rewrite (indexOf_first _ _ _ Hl).
  rewrite substring_prefix, substring_after_nl.
  destruct (negb (truthy (trim line))); [reflexivity|].
  now destruct (frame_loop fuel rest).
Qed.

Lemma frame_loop_partial fuel buffer :
  includes buffer NL = false -> frame_loop fuel buffer = ([], buffer).
Proof. intros H. destruct fuel; simpl; [reflexivity|]. now rewrite H. Qed.

(** Fuel beyond the length of the buffer changes nothing. *)
Lemma frame_loop_fuel fuel buffer :
  (length buffer <= fuel)%nat ->
  frame_loop fuel buffer = frame_loop (length buffer) buffer.
Proof.
  revert buffer.
  induction fuel as [fuel IH] using lt_wf_ind. intros buffer Hf.
  destruct (includes buffer NL) eqn:E.
  - destruct (includes_split _ _ E) as (line & rest & -> & Hl).
    rewrite length_app in *. simpl in *.
    destruct fuel as [|fuel]; [lia|].
    replace (length line + S (length rest))%nat
      with (S (length line + length rest)) by lia.
    rewrite !frame_loop_line by assumption.
    rewrite (IH fuel) by lia.
    rewrite (IH (length line + length rest)%nat) by lia.
    reflexivity.
  - now rewrite !frame_loop_partial.
Qed.

Lemma frame_line line rest :
  includes line NL = false ->
  frame (line ++ NL :: rest) =
    if negb (truthy (trim line)) then frame rest
    else (line :: fst (frame rest), snd (frame rest)).
Proof.
  intros Hl. unfold frame. rewrite length_app. simpl.
  rewrite Nat.add_succ_r, frame_loop_line by assumption.
  now rewrite (frame_loop_fuel (length line + length rest)) by lia.
Qed.

Lemma frame_partial buffer :
  includes buffer NL = false -> frame buffer = ([], buffer).
Proof. apply frame_loop_partial. Qed.

(** Induction on a buffer line by line. *)
Lemma buffer_ind (P : list Z -> Prop) :
  (forall buffer, includes buffer NL = false -> P buffer) ->
  (forall line rest, includes line NL = false -> P rest ->
                     P (line ++ NL :: rest)) ->
  forall buffer : list Z, P buffer.
Proof.
  intros Hpart Hline buffer.
  remember (length buffer) as n eqn:Hn.
  assert (Hle : (length buffer <= n)%nat) by lia. clear Hn.
  revert buffer Hle. induction n as [|n IH]; intros buffer Hle.
  - apply Hpart. destruct buffer; [reflexivity | simpl in Hle; lia].
  - destruct (includes buffer NL) eqn:E; [|now apply Hpart].
    destruct (includes_split _ _ E) as (line & rest & -> & Hl).
    apply Hline; [assumption|]. apply IH.
    rewrite length_app in Hle. simpl in Hle. lia.
Qed.

(** The loop always runs to the end: what is left holds no newline. *)
Lemma frame_complete buffer : includes (snd (frame buffer)) NL = false.
Proof.
  revert buffer. apply buffer_ind; [intros buffer Hp | intros line rest Hl IH].
  - now rewrite frame_partial.
  - rewrite frame_line by assumption.
    now destruct (negb (truthy (trim line))).
Qed.

(** Framing a buffer followed by more text: frame the buffer, then frame
    what it left followed by the text. *)
Lemma frame_app a b :
  frame (a ++ b) =
    let '(m1, r1) := frame a in
    let '(m2, r2) := frame (r1 ++ b) in
    (m1 ++ m2, r2).
Proof.
  revert a. apply buffer_ind; [intros a Hp | intros line rest Hl IH].
  - rewrite (frame_partial a Hp). now destruct (frame (a ++ b)).
  - rewrite <- app_assoc. simpl.
    rewrite !frame_line by assumption. rewrite IH.
    destruct (negb (truthy (trim line))); destruct (frame rest) as [m1 r1];
      simpl; now destruct (frame (r1 ++ b)) as [m2 r2].
Qed.

(** Chunk-boundary independence on decoded text: feeding the pieces one
    by one frames the same messages, and leaves the same remainder, as
    feeding their concatenation at once. *)
Lemma feed_all_text_concat buffer chunks :
  includes buffer NL = false ->
  feed_all_text buffer chunks = feed_text buffer (concat chunks).
Proof.
  revert buffer. induction chunks as [|text chunks IH]; intros buffer Hb; simpl.
  - unfold feed_text. rewrite app_nil_r. now rewrite frame_partial.
  - unfold feed_text.
    rewrite (app_assoc buffer text), (frame_app (buffer ++ text)).
    pose proof (frame_complete (buffer ++ text)) as Hc.
    destruct (frame (buffer ++ text)) as [m1 r1]. simpl in Hc.
    now rewrite (IH r1 Hc).
Qed.

(** A line that is empty after trimming is skipped: every message handed
    on has a character that is not white space. *)
Lemma frame_no_blank buffer :
  Forall (fun line => trim line <> []) (fst (frame buffer)).
Proof.
  revert buffer. apply buffer_ind; [intros buffer Hp | intros line rest Hl IH].
  - rewrite frame_partial by assumption. constructor.
  - rewrite frame_line by assumption.
    destruct (trim line) eqn:E; simpl; [exact IH|].
    constructor; [|exact IH]. now rewrite E.
Qed.

(** A blank line in front of the buffer yields nothing. *)
Lemma frame_blank_line line rest :
  includes line NL = false -> trim line = [] ->
  frame (line ++ NL :: rest) = frame rest.
Proof. intros Hl Hb. rewrite frame_line by assumption. now rewrite Hb. Qed.

End FramerFacts.

Section DecoderFacts.

(** After any byte the decoder is back at the start or inside a sequence. *)
Lemma utf8_lead_state b :
  fst (Utf8.lead b) = Utf8.start \/ Utf8.u_needed (fst (Utf8.lead b)) <> 0.
Proof.
  unfold Utf8.lead.
  repeat match goal with
         | |- context [if ?c then _ else _] => destruct c
         end; simpl; auto; right; lia.
Qed.

Lemma utf8_step_state st b :
  fst (Utf8.step st b) = Utf8.start \/
  Utf8.u_needed (fst (Utf8.step st b)) <> 0.
Proof.
  unfold Utf8.step.
  destruct (Utf8.u_needed st =? 0) eqn:E0; [apply utf8_lead_state|].
  destruct ((Utf8.u_lower st <=? b) && (b <=? Utf8.u_upper st)).
  - destruct (Utf8.u_needed st =? 1) eqn:E1; simpl; [now left|right; lia].
  - pose proof (utf8_lead_state b). now destruct (Utf8.lead b).
Qed.

Lemma utf8_run_state bs : forall st,
  st = Utf8.start \/ Utf8.u_needed st <> 0 ->
  fst (Utf8.run st bs) = Utf8.start \/
  Utf8.u_needed (fst (Utf8.run st bs)) <> 0.
Proof.
  induction bs as [|b bs IH]; intros st Hst; simpl; [exact Hst|].
  pose proof (utf8_step_state st b) as Hs.
  destruct (Utf8.step st b) as [st1 o1]. simpl in Hs.
  specialize (IH st1 Hs). now destruct (Utf8.run st1 bs).
Qed.

Lemma utf8_run_app a b st :
  Utf8.run st (a ++ b) =
    let '(s1, o1) := Utf8.run st a in
    let '(s2, o2) := Utf8.run s1 b in
    (s2, o1 ++ o2).
Proof.
  revert st. induction a as [|x a IH]; intros st; simpl.
  - now destruct (Utf8.run st b).
  - destruct (Utf8.step st x) as [st1 o1]. rewrite IH.
    destruct (Utf8.run st1 a) as [s1 o2]. destruct (Utf8.run s1 b) as [s2 o3].
    now rewrite app_assoc.
Qed.

(** A chunk that ends between characters decodes independently of what
    follows it. *)
Lemma toString_app a b :
  Utf8.ends_at_boundary a ->
  Utf8.toString (a ++ b) = Utf8.toString a ++ Utf8.toString b.
Proof.
  unfold Utf8.ends_at_boundary, Utf8.toString. intros Ha.
  rewrite utf8_run_app.
  pose proof (utf8_run_state a Utf8.start (or_introl eq_refl)) as Hs.
  destruct (Utf8.run Utf8.start a) as [s1 o1]. simpl in Ha, Hs.
  destruct Hs as [-> | Hs]; [|contradiction].
  destruct (Utf8.run Utf8.start b) as [s2 o2].
  unfold Utf8.flush at 2. simpl. now rewrite app_nil_r, app_assoc.
Qed.

Lemma toString_concat chunks :
  Forall Utf8.ends_at_boundary chunks ->
  Utf8.toString (concat chunks) = concat (List.map Utf8.toString chunks).
Proof.
  induction 1 as [|a chunks Ha _ IH]; simpl; [reflexivity|].
  now rewrite toString_app, IH.
Qed.

(** ASCII never opens a sequence. *)
Lemma ascii_ends_at_boundary data :
  Forall (fun b => 0 <= b <= 127) data -> Utf8.ends_at_boundary data.
Proof.
  unfold Utf8.ends_at_boundary.
  induction 1 as [|b data Hb _ IH]; simpl; [reflexivity|].
  unfold Utf8.step, Utf8.lead. simpl.
  destruct (b <=? 127) eqn:E; [|lia].
  now destruct (Utf8.run Utf8.start data).
Qed.

Lemma feed_all_as_text buffer chunks :
  feed_all buffer chunks =
  feed_all_text buffer (List.map Utf8.toString chunks).
Proof.
  revert buffer. induction chunks as [|data chunks IH]; intros buffer; simpl;
    [reflexivity|].
  unfold feed. destruct (feed_text buffer (Utf8.toString data)) as [m1 b1].
  now rewrite IH.
Qed.

(** Chunk-boundary independence on bytes, for chunks that end between
    characters. *)
Lemma feed_all_concat buffer chunks :
  includes buffer NL = false ->
  Forall Utf8.ends_at_boundary chunks ->
  feed_all buffer chunks = feed buffer (concat chunks).
Proof.
  intros Hb Hc. rewrite feed_all_as_text, feed_all_text_concat by assumption.
  unfold feed. now rewrite toString_concat.
Qed.

(** C8. A two-byte character cut by a chunk boundary: the stream
    [C3 A9 0A] in one chunk frames the message "é", the same stream as
    [C3] then [A9 0A] frames a message of two replacement characters. *)
Theorem C8_split_character_changes_message :
  feed [] [195; 169; 10] = ([[233]], []) /\
  feed_all [] [[195]; [169; 10]] = ([[65533; 65533]], []) /\
  fst (feed_all [] [[195]; [169; 10]]) <> fst (feed [] (concat [[195]; [169; 10]])).
Proof.
  split; [reflexivity|]. split; [reflexivity|]. discriminate.
Qed.

End DecoderFacts.

(** Unfold one dispatch down to the calls of the collaborators. *)
Ltac dispatch_unfold :=
  unfold processLine, tryBody, autoLaunchGate, scheduleClose, do_launch,
    do_startCodegen, do_execute, socket_write, emit, get, modify, bind, ret
    in *.

(** Split on every outcome of the collaborators and of the flags. *)
Ltac dispatch_cases :=
  repeat match goal with
         | H : (_, _) = (_, _) |- _ => inversion H; subst; clear H
         | H : Ok _ = Throw _ |- _ => discriminate H
         | H : Throw _ = Ok _ |- _ => discriminate H
         | |- context [match ?x with _ => _ end] => destruct x eqn:?
         | H : context [match ?x with _ => _ end] |- _ => destruct x eqn:?
         end.

(** Close an obligation [d_trace d' = d_trace d ++ ?delta]. *)
Ltac trace_delta :=
  simpl; rewrite <- ?app_assoc; simpl; reflexivity.

Section DispatcherFacts.
Context `{driver : Driver}.
Context (h : Host).

Lemma trace_log e (d : daemon) : d_trace (log e d) = d_trace d ++ [e].
Proof. reflexivity. Qed.

(** C6. A line that fails to decode is answered with exactly one error
    response, tagged with the identifier the codec salvaged or with
    "unknown"; nothing else changes (the process does not exit, no teardown
    is armed), and the loop goes on with the rest of the buffer of the same
    connection. *)
Theorem C6_decode_failure_one_error_response
    (conn : nat) (line : jsstring) (id : option jsstring) (error : jsstring)
    (d : daemon) :
  parseCommand line = ParseFail id error ->
  let answer :=
    EvSocketWrite conn
      (serializeResponse (errorResponse (nullish id (str "unknown")) error)
       ++ [NL]) in
  processLine h conn line d = (log answer d, Continue) /\
  d_exit (fst (processLine h conn line d)) = d_exit d /\
  d_shuttingDown (fst (processLine h conn line d)) = d_shuttingDown d /\
  forall fuel rest,
    includes line NL = false -> trim line <> [] ->
    dataLoop h (S fuel) conn (line ++ NL :: rest) d =
    dataLoop h fuel conn rest (log answer d).
Proof.
  intros Hparse answer.
  assert (E : processLine h conn line d = (log answer d, Continue)).
  { dispatch_unfold. now rewrite Hparse. }
  split; [exact E|]. rewrite E. split; [reflexivity|]. split; [reflexivity|].
  intros fuel rest Hl Hb. simpl.
  rewrite includes_app_nl, (indexOf_first _ _ _ Hl).
  rewrite substring_prefix, substring_after_nl, E.
  destruct (trim line); [contradiction|reflexivity].
Qed.

(** C10. When a decoded command makes the dispatcher throw (in the
    auto-launch gate or in the driver), exactly one response is written for
    it: the error response with the identifier "error" and the message of
    what was thrown.  The loop goes on, the process does not exit and no
    teardown is armed. *)
Theorem C10_thrown_processing_one_error_response
    (conn : nat) (line : jsstring) (command : Command) (err : thrown)
    (d d' : daemon) :
  parseCommand line = ParseOk command ->
  tryBody h conn line d = (d', Throw err) ->
  let answer :=
    EvSocketWrite conn
      (serializeResponse (errorResponse (str "error") (message_of err))
       ++ [NL]) in
  processLine h conn line d = (log answer d', Continue) /\
  (exists delta,
      d_trace (log answer d') = d_trace d ++ delta /\
      List.filter is_write delta = [answer]) /\
  d_exit d' = d_exit d /\
  d_shuttingDown d' = d_shuttingDown d /\
  d_timer d' = d_timer d /\
  (exists b b',
      launch (autoLaunchCommand h) b = (b', Throw err) \/
      startCodegen (codegenOptions h) b = (b', Throw err) \/
      executeCommand command b = (b', Throw err)).
Proof.
  intros Hparse Hthrow answer.
  split; [unfold processLine; now rewrite Hthrow|].
  subst answer. revert Hthrow. dispatch_unfold. rewrite Hparse.
  intros Hthrow. dispatch_cases; simpl in *;
    (split; [eexists; split; [trace_delta | reflexivity] |]);
    (split; [reflexivity|]); (split; [reflexivity|]);
    (split; [reflexivity|]); do 2 eexists; eauto.
Qed.

(** The extension list of the gate holds trimmed, non-empty entries. *)
Lemma extensions_trimmed es :
  extensionsFromEnv h = Some es ->
  Forall (fun e => e <> [] /\ trim e = e) es.
Proof.
  unfold extensionsFromEnv.
  destruct (env_get h "AGENT_BROWSER_EXTENSIONS") as [v|]; [|discriminate].
  destruct (truthy v); [|discriminate]. intros [= <-].
  apply List.Forall_forall. intros e He.
  apply List.filter_In in He as [He Ht].
  apply List.in_map_iff in He as (x & <- & _).
  split; [|apply trim_idem]. now destruct (trim x).
Qed.

(** C5. A decoded command other than [launch] and [close] passes the
    auto-launch gate: when the browser is not launched, the first thing the
    dispatcher does is one call of [browser.launch] with the configuration
    of the environment (headless unless AGENT_BROWSER_HEADED is "1", the
    executable path variable as it is, the extensions variable split at
    commas, trimmed, empty entries dropped), and no other launch follows;
    only the command itself is executed, after it.  When the browser is
    launched already, no launch happens. *)
Theorem C5_auto_launch_once_before_command
    (conn : nat) (line : jsstring) (command : Command) (d : daemon) :
  parseCommand line = ParseOk command ->
  is_action command "launch" = false ->
  is_action command "close" = false ->
  exists delta,
    d_trace (fst (processLine h conn line d)) = d_trace d ++ delta /\
    (isLaunched (d_browser d) = false ->
       exists delta', delta = EvLaunch (autoLaunchCommand h) :: delta' /\
                      List.filter is_launch delta' = []) /\
    (isLaunched (d_browser d) = true -> List.filter is_launch delta = []) /\
    (forall e, In e (List.filter is_execute delta) -> e = EvExecute command) /\
    l_headless (autoLaunchCommand h) =
      negb (bool_decide (env_get h "AGENT_BROWSER_HEADED" = Some (str "1"))) /\
    l_executablePath (autoLaunchCommand h) =
      env_get h "AGENT_BROWSER_EXECUTABLE_PATH" /\
    (forall v, env_get h "AGENT_BROWSER_EXTENSIONS" = Some v -> v <> [] ->
       l_extensions (autoLaunchCommand h) =
         Some (List.filter truthy (List.map trim (split COMMA v)))) /\
    (forall es, l_extensions (autoLaunchCommand h) = Some es ->
       Forall (fun e => e <> [] /\ trim e = e) es).
Proof.
  intros Hparse Hl Hc.
  assert (Hconf :
    l_headless (autoLaunchCommand h) =
      negb (bool_decide (env_get h "AGENT_BROWSER_HEADED" = Some (str "1"))) /\
    l_executablePath (autoLaunchCommand h) =
      env_get h "AGENT_BROWSER_EXECUTABLE_PATH" /\
    (forall v, env_get h "AGENT_BROWSER_EXTENSIONS" = Some v -> v <> [] ->
       l_extensions (autoLaunchCommand h) =
         Some (List.filter truthy (List.map trim (split COMMA v)))) /\
    (forall es, l_extensions (autoLaunchCommand h) = Some es ->
       Forall (fun e => e <> [] /\ trim e = e) es)).
  { split; [reflexivity|]. split; [reflexivity|].
    split; [|apply extensions_trimmed].
    intros v Hv Hne.
    unfold autoLaunchCommand, extensionsFromEnv. cbn [l_extensions].
    rewrite Hv.
    destruct v; [contradiction|reflexivity]. }
  dispatch_unfold. rewrite Hparse, Hl, Hc. simpl.
  destruct (isLaunched (d_browser d)) eqn:Hlaunched; simpl;
    dispatch_cases; simpl;
    (eexists; split; [trace_delta|]);
    (split; [intros Hx; try discriminate Hx;
             eexists; split; reflexivity|]);
    (split; [intros Hx; try discriminate Hx; reflexivity|]);
    (split; [simpl; intros e He; intuition congruence|]);
    exact Hconf.
Qed.

End DispatcherFacts.

Section LivenessFacts.
Context (h : Host) (currentSession : jsstring).

Lemma removeIfExists_delete (p : jsstring) (fs : FS) : removeIfExists p fs = delete p fs.
Proof.
  unfold removeIfExists, existsSync, unlinkSync.
  case_bool_decide as E; [reflexivity|].
  symmetry. apply delete_id.
  destruct (fs !! p) eqn:Hp; [|reflexivity]. exfalso. apply E. eauto.
Qed.

Lemma cleanupSocket_deletes (session : option jsstring) (fs : FS) :
  cleanupSocket h currentSession session fs =
  foldr delete fs (rev (artifacts h currentSession session)).
Proof.
  unfold cleanupSocket, artifacts. cbv zeta.
  destruct (isWindows h); cbn [rev app foldr];
    now rewrite !removeIfExists_delete.
Qed.

Lemma lookup_foldr_delete (ps : list jsstring) (fs : FS) (p : jsstring) :
  foldr delete fs ps !! p = if bool_decide (p ∈ ps) then None else fs !! p.
Proof.
  induction ps as [|q ps IH]; cbn [foldr].
  - rewrite bool_decide_false by apply not_elem_of_nil. reflexivity.
  - destruct (decide (q = p)) as [->|Hne].
    + rewrite lookup_delete_eq, bool_decide_true by (apply elem_of_cons; now left).
      reflexivity.
    + rewrite lookup_delete_ne, IH by assumption.
      destruct (decide (p ∈ ps)) as [Hin|Hin].
      * now rewrite !bool_decide_true
          by (try (apply elem_of_cons; right); assumption).
      * rewrite (bool_decide_false (p ∈ ps)) by assumption.
        rewrite (bool_decide_false (p ∈ q :: ps)); [reflexivity|].
        apply not_elem_of_cons. split; [congruence|assumption].
Qed.

(** [cleanupSocket] removes the artifacts of the session and nothing else. *)
Lemma cleanupSocket_lookup (session : option jsstring) (fs : FS) (p : jsstring) :
  cleanupSocket h currentSession session fs !! p =
  if bool_decide (In p (artifacts h currentSession session)) then None
  else fs !! p.
Proof.
  rewrite cleanupSocket_deletes, lookup_foldr_delete.
  destruct (decide (p ∈ artifacts h currentSession session)) as [Hin|Hin].
  - rewrite (bool_decide_true (In p _)) by now apply list_elem_of_In.
    rewrite bool_decide_true; [reflexivity|].
    apply list_elem_of_In, in_rev. rewrite rev_involutive.
    now apply list_elem_of_In.
  - rewrite (bool_decide_false (In p _))
      by (intros Hr; apply Hin; now apply list_elem_of_In).
    rewrite bool_decide_false; [reflexivity|].
    intros Hr. apply Hin. apply list_elem_of_In, in_rev.
    now apply list_elem_of_In.
Qed.

(** [cleanupSocket] twice is [cleanupSocket] once. *)
Lemma cleanupSocket_idem (session : option jsstring) (fs : FS) :
  cleanupSocket h currentSession session
    (cleanupSocket h currentSession session fs) =
  cleanupSocket h currentSession session fs.
Proof.
  apply map_eq. intros p. rewrite !cleanupSocket_lookup.
  now case_bool_decide.
Qed.

(** C4. The liveness check.  Without a PID file it answers false and leaves
    every file as it is.  With a PID file whose process answers the probe it
    answers true and leaves every file as it is.  With a PID file whose
    probe fails (the content is not a number, or the system call fails) it
    answers false and removes the artifacts of the session: PID file,
    stream-port file and socket or port file. *)
Theorem C4_liveness_check (kill0 : Z -> bool) (session : option jsstring)
    (fs : FS) :
  let pidFile := getPidFile h currentSession session in
  let check := isDaemonRunning h currentSession kill0 session fs in
  (fs !! pidFile = None -> check = (false, fs)) /\
  (forall content,
      fs !! pidFile = Some content ->
      process_kill0 kill0 (parseInt (trim content)) = true ->
      check = (true, fs)) /\
  (forall content,
      fs !! pidFile = Some content ->
      process_kill0 kill0 (parseInt (trim content)) = false ->
      fst check = false /\
      (forall p, In p (artifacts h currentSession session) ->
                 snd check !! p = None) /\
      (forall p, ~ In p (artifacts h currentSession session) ->
                 snd check !! p = fs !! p)).
Proof.
  intros pidFile check. subst check. unfold isDaemonRunning, existsSync.
  fold pidFile. unfold readFileSync.
  split; [|split].
  - intros Hp. rewrite Hp. case_bool_decide as E; [|reflexivity].
    now destruct E.
  - intros content Hp Hk. rewrite Hp, Hk.
    case_bool_decide as E; [reflexivity|]. exfalso. apply E. eauto.
  - intros content Hp Hk. rewrite Hp, Hk.
    case_bool_decide as E; [|exfalso; apply E; eauto]. simpl.
    split; [reflexivity|].
    split; intros p Hin; rewrite cleanupSocket_lookup;
      now case_bool_decide.
Qed.

End LivenessFacts.

Section LifecycleFacts.
Context `{driver : Driver}.
Context (h : Host).








(** *** The handlers of the coordinator *)














(** *** The flag discipline over whole runs *)






End LifecycleFacts.

Section LifecycleClaims.
Context `{driver : Driver}.
Context (h : Host).

(** C3. Start-up performs, in this order: [cleanupSocket()]; when a stream
    port is configured, the start of the stream server and the write of its
    port file; the creation of the listener, not yet bound; the write of the
    PID file and, on Windows, of the port file; and last [server.listen] on
    the endpoint of the session, which binds and accepts.  The process is
    then alive. *)
Theorem C3_startup_order (options : option Z) (fs : FS) :
  let d := main h options (Ok tt) fs in
  let session := initialSession h in
  d_trace d =
    [EvCleanupSocket]
    ++ match streamEnabled (streamPortOf h options) with
       | Some port =>
           [EvStreamStart port;
            EvWriteFile (getStreamPortFile h session None) (String_of_Z port)]
       | None => []
       end
    ++ [EvCreateServer;
        EvWriteFile (getPidFile h session None) (String_of_Z (pid h))]
    ++ (if isWindows h
        then [EvWriteFile (getPortFile h session None)
                (String_of_Z (getPortForSession session))]
        else [])
    ++ [EvListen (getConnectionInfo h session None)] /\
  d_exit d = None.
Proof.
  unfold main, startDaemon, bindAndListen, getConnectionInfo, getSocketPath,
    modify, emit, get, bind, ret.
  destruct (streamEnabled (streamPortOf h options)); simpl;
    destruct (isWindows h); simpl; split; reflexivity.
Qed.




End LifecycleClaims.

(** * The properties at work on the sample daemon *)

Section SampleRuns.
Import Sample Runs.
#[local] Existing Instance sample_codec.
#[local] Existing Instance sample_driver.

Lemma C6_decode_failure_witness :
  parseCommand (str "garbage") = ParseFail None (str "invalid request") /\
  processLine posix 1 (str "garbage") started =
    (log (EvSocketWrite 1 (str "unknown error invalid request" ++ [NL]))
       started,
     Continue).
Proof.
  split; [reflexivity|].
  destruct (C6_decode_failure_one_error_response posix 1%nat (str "garbage")
              None (str "invalid request") started eq_refl) as (E & _).
  exact E.
Defined.

Lemma C10_thrown_processing_witness :
  let command : @Command sample_codec :=
    Build_SampleCommand (str "3") (str "fail") in
  let err := ThrownError (str "command failed") in
  let d' := fst (tryBody posix 1 (str "3:fail") started) in
  parseCommand (str "3:fail") = ParseOk command /\
  tryBody posix 1 (str "3:fail") started = (d', Throw err) /\
  processLine posix 1 (str "3:fail") started =
    (log (EvSocketWrite 1 (str "error error command failed" ++ [NL])) d',
     Continue).
Proof.
  intros command err d'.
  assert (Hp : parseCommand (str "3:fail") = ParseOk command) by reflexivity.
  assert (Ht : tryBody posix 1 (str "3:fail") started = (d', Throw err))
    by reflexivity.
  split; [exact Hp|]. split; [exact Ht|].
  destruct (C10_thrown_processing_one_error_response posix 1%nat
              (str "3:fail") command err started d' Hp Ht) as (E & _).
  exact E.
Defined.

Lemma C5_auto_launch_witness :
  let command : @Command sample_codec :=
    Build_SampleCommand (str "7") (str "click") in
  parseCommand (str "7:click") = ParseOk command /\
  is_action command "launch" = false /\
  is_action command "close" = false /\
  isLaunched (d_browser started_configured) = false /\
  exists delta',
    added started_configured
      (fst (processLine configured 1 (str "7:click") started_configured)) =
    EvLaunch (autoLaunchCommand configured) :: delta' /\
    List.filter is_launch delta' = [].
Proof.
  intros command.
  do 4 (split; [reflexivity|]).
  destruct (C5_auto_launch_once_before_command configured 1%nat
              (str "7:click") command started_configured
              eq_refl eq_refl eq_refl)
    as (delta & Ht & Hfirst & _).
  destruct (Hfirst eq_refl) as (delta' & -> & Hnone).
  exists delta'. split; [|exact Hnone].
  unfold added. rewrite Ht. now rewrite List.skipn_app, Nat.sub_diag, List.skipn_all.
Defined.


Lemma C4_liveness_check_witness :
  let pidFile := getPidFile posix (str "default") None in
  let fs : FS := {[ pidFile := str "4242" ]} in
  fs !! pidFile = Some (str "4242") /\
  process_kill0 (fun _ => false) (parseInt (trim (str "4242"))) = false /\
  fst (isDaemonRunning posix (str "default") (fun _ => false) None fs) = false.
Proof.
  intros pidFile fs.
  assert (Hp : fs !! pidFile = Some (str "4242")) by reflexivity.
  assert (Hk : process_kill0 (fun _ => false) (parseInt (trim (str "4242")))
               = false) by reflexivity.
  split; [exact Hp|]. split; [exact Hk|].
  destruct (C4_liveness_check posix (str "default") (fun _ => false) None fs)
    as (_ & _ & Hdead).
  destruct (Hdead (str "4242") Hp Hk) as (E & _). exact E.
Defined.





(** C3, as the claim words it, fails: the listener is bound to its
    endpoint by [server.listen], the fourth effect of start-up, after the
    PID file has been written by the third. *)
Lemma C3_marker_written_before_bind :
  index_of (is_write_of (getPidFile posix (str "default") None))
    (d_trace started) = Some 2%nat /\
  index_of is_listen (d_trace started) = Some 3%nat /\
  d_trace started =
    [EvCleanupSocket; EvCreateServer;
     EvWriteFile (str "/tmp/agent-browser-default.pid") (str "4242");
     EvListen (Unix (str "/tmp/agent-browser-default.sock"))].
Proof. vm_compute. repeat split; reflexivity. Qed.

(** C4, as the claim words it, fails: a stale socket file without a PID
    file.  The check answers false and the socket file is still there. *)
Lemma C4_absent_marker_leaves_socket_file :
  let sock := getSocketPath posix (str "default") None in
  let fs : FS := {[ sock := [] ]} in
  In sock (artifacts posix (str "default") None) /\
  isDaemonRunning posix (str "default") (fun _ => false) None fs = (false, fs) /\
  snd (isDaemonRunning posix (str "default") (fun _ => false) None fs) !! sock
    = Some [].
Proof.
  intros sock fs. split; [right; right; left; reflexivity|].
  split; reflexivity.
Qed.

End SampleRuns.
